(** * The BareMetalCluster lifecycle manager

    A shallow embedding of [baremetal/baremetalcluster_manager.go]: the
    [ClusterManager] and its operations, over the API types the manager
    reads and writes.  Go pointers that may be nil are [option]s, slices are
    lists (a nil slice and an empty slice both hold no element and are the
    empty list), Go's [int] is [Z], methods with a pointer receiver are
    computations in a state monad over the manager, whose runs either
    return or panic. *)

From stdpp Require Import base gmap strings list.

Local Open Scope Z_scope.
Local Open Scope string_scope.

(** ** Go values shared by all packages *)

(** A Go [error] value is represented by its message; [nil] is [None]. *)
Definition error := string.

(** [metav1.Time], as an instant on an integer clock. *)
Definition Time := Z.

(** ** Package [github.com/pkg/errors] *)
Module errors.

Definition New (message : string) : option error := Some message.

(** [Wrapf] annotates [err] with a message; wrapping [nil] gives [nil]. *)
Definition Wrapf (err : option error) (message : string) : option error :=
  match err with
  | None => None
  | Some e => Some (message +:+ ": " +:+ e)
  end.

End errors.

(** ** Package [sigs.k8s.io/cluster-api/errors] *)
Module capierrors.

(** [type ClusterStatusError string]. *)
Definition ClusterStatusError := string.

Definition InvalidConfigurationClusterError : ClusterStatusError :=
  "InvalidConfiguration".

End capierrors.

(** ** Package [k8s.io/apimachinery/pkg/apis/meta/v1] *)
Module metav1.

Record OwnerReference := {
  APIVersion : string;
  Kind : string;
  RefName : string
}.

Record ObjectMeta := {
  Name : string;
  Namespace : string;
  Labels : gmap string string;
  OwnerReferences : list OwnerReference;
  Finalizers : list string
}.

Definition withFinalizers (fs : list string) (m : ObjectMeta) : ObjectMeta :=
  {| Name := Name m; Namespace := Namespace m; Labels := Labels m;
     OwnerReferences := OwnerReferences m; Finalizers := fs |}.

End metav1.

(** ** Package [sigs.k8s.io/cluster-api/api/v1alpha3] *)
Module capi.

(** The label every machine of a cluster carries, as in the cluster
    template shipped with the manager. *)
Definition ClusterLabelName : string := "cluster.x-k8s.io/cluster-name".

Record Cluster := { ClusterMeta : metav1.ObjectMeta }.

Record Machine := { MachineMeta : metav1.ObjectMeta }.

Record MachineList := { Items : list Machine }.

End capi.

(** ** Package [api/v1alpha3] of this repository *)
Module capm3.

Record APIEndpoint := { Host : string; Port : Z }.

Record BareMetalClusterSpec := {
  ControlPlaneEndpoint : APIEndpoint;
  NoCloudProvider : bool
}.

(** Modelled from the spec: the declaration of [BareMetalClusterStatus]
    is not among the sources.  [Ready], [LastUpdated], [FailureMessage] and
    [FailureReason] are the fields the manager assigns; [APIEndpoints] is
    the "zero-or-more resolved API endpoints {host, port}" of the data
    model. *)
Record BareMetalClusterStatus := {
  LastUpdated : option Time;
  FailureReason : option capierrors.ClusterStatusError;
  FailureMessage : option string;
  Ready : bool;
  APIEndpoints : list APIEndpoint
}.

Record BareMetalCluster := {
  ObjectMeta : metav1.ObjectMeta;
  Spec : BareMetalClusterSpec;
  Status : BareMetalClusterStatus
}.

Definition withReady (b : bool) (st : BareMetalClusterStatus) :=
  {| LastUpdated := LastUpdated st; FailureReason := FailureReason st;
     FailureMessage := FailureMessage st; Ready := b;
     APIEndpoints := APIEndpoints st |}.

Definition withLastUpdated (t : option Time) (st : BareMetalClusterStatus) :=
  {| LastUpdated := t; FailureReason := FailureReason st;
     FailureMessage := FailureMessage st; Ready := Ready st;
     APIEndpoints := APIEndpoints st |}.

Definition withFailureMessage (m : option string) (st : BareMetalClusterStatus) :=
  {| LastUpdated := LastUpdated st; FailureReason := FailureReason st;
     FailureMessage := m; Ready := Ready st;
     APIEndpoints := APIEndpoints st |}.

Definition withFailureReason (r : option capierrors.ClusterStatusError)
    (st : BareMetalClusterStatus) :=
  {| LastUpdated := LastUpdated st; FailureReason := r;
     FailureMessage := FailureMessage st; Ready := Ready st;
     APIEndpoints := APIEndpoints st |}.

Definition withStatus (f : BareMetalClusterStatus -> BareMetalClusterStatus)
    (c : BareMetalCluster) : BareMetalCluster :=
  {| ObjectMeta := ObjectMeta c; Spec := Spec c; Status := f (Status c) |}.

Definition withObjectMeta (f : metav1.ObjectMeta -> metav1.ObjectMeta)
    (c : BareMetalCluster) : BareMetalCluster :=
  {| ObjectMeta := f (ObjectMeta c); Spec := Spec c; Status := Status c |}.

End capm3.

(** ** Package [sigs.k8s.io/cluster-api/util] *)
Module util.

(** [Contains] ranges over the list and answers true at the first equal
    string. *)
Fixpoint Contains (l : list string) (strSearch : string) : bool :=
  match l with
  | [] => false
  | str :: rest =>
      if String.eqb str strSearch then true else Contains rest strSearch
  end.

(** [Filter] appends to a fresh list every item different from
    [strFilter], in order. *)
Fixpoint Filter (l : list string) (strFilter : string) : list string :=
  match l with
  | [] => []
  | item :: rest =>
      if negb (String.eqb item strFilter)
      then item :: Filter rest strFilter
      else Filter rest strFilter
  end.

End util.

(** ** Package [sigs.k8s.io/controller-runtime/pkg/client] *)
Module client.

Inductive ListOption :=
| InNamespace (ns : string)
| MatchingLabels (lbls : gmap string string).

(** The [Client] interface, restricted to the method the manager calls.
    [List] receives the list object to fill and answers it back together
    with its error. *)
Record Client := {
  List : capi.MachineList -> list ListOption ->
         capi.MachineList * option error
}.

(** What a list option asks of a machine. *)
Definition matchesOption (m : capi.Machine) (o : ListOption) : bool :=
  match o with
  | InNamespace ns =>
      String.eqb (metav1.Namespace (capi.MachineMeta m)) ns
  | MatchingLabels lbls =>
      bool_decide
        (map_Forall (fun k v => metav1.Labels (capi.MachineMeta m) !! k = Some v)
                    lbls)
  end.

Definition matchesAll (opts : list ListOption) (m : capi.Machine) : bool :=
  forallb (matchesOption m) opts.

(** A store holding [machines]: listing answers the machines that meet
    every option, or fails with [failure] and leaves the list object as it
    was received. *)
Definition storeClient (machines : list capi.Machine)
    (failure : option error) : Client :=
  {| List := fun into opts =>
       match failure with
       | Some e => (into, Some e)
       | None =>
           ({| capi.Items := filter (fun m => matchesAll opts m = true) machines |},
            None)
       end |}.

End client.

(** ** Package [github.com/go-logr/logr] *)
Module logr.

Inductive Entry :=
| ErrorEntry (err : option error) (msg : string)
| InfoEntry (msg : string) (key : string) (value : Z).

(** A logger is represented by the entries written to it, oldest first. *)
Definition Logger := list Entry.

End logr.

(** ** Package [baremetal]: the cluster manager *)

(** [ClusterManager]: the store client, the owning cluster, the
    infrastructure object the manager mutates in place, and its logger.
    [Cluster] and [BareMetalCluster] are never nil in a manager built by
    [NewClusterManager]. *)
Record ClusterManager := {
  client : client.Client;
  Cluster : capi.Cluster;
  BareMetalCluster : capm3.BareMetalCluster;
  Log : logr.Logger
}.

Definition withBareMetalCluster
    (f : capm3.BareMetalCluster -> capm3.BareMetalCluster)
    (s : ClusterManager) : ClusterManager :=
  {| client := client s; Cluster := Cluster s;
     BareMetalCluster := f (BareMetalCluster s); Log := Log s |}.

Definition withLog (f : logr.Logger -> logr.Logger) (s : ClusterManager)
    : ClusterManager :=
  {| client := client s; Cluster := Cluster s;
     BareMetalCluster := BareMetalCluster s; Log := f (Log s) |}.

(** The run of a method: it returns, or the Go runtime panics. *)
Inductive outcome (A : Type) :=
| Returned (a : A)
| Panicked (why : string).
Arguments Returned {A} a.
Arguments Panicked {A} why.

(** Methods on [*ClusterManager]: the receiver is threaded as state. *)
Definition M (A : Type) : Type := ClusterManager -> outcome (A * ClusterManager).

#[global] Instance M_ret : MRet M := fun A a s => Returned (a, s).

#[global] Instance M_bind : MBind M := fun A B k m s =>
  match m s with
  | Returned (a, s') => k a s'
  | Panicked why => Panicked why
  end.

Definition get : M ClusterManager := fun s => Returned (s, s).

Definition modify (f : ClusterManager -> ClusterManager) : M unit :=
  fun s => Returned (tt, f s).

Definition panic {A : Type} (why : string) : M A := fun _ => Panicked why.

Definition LogError (err : option error) (msg : string) : M unit :=
  modify (withLog (fun l => (l ++ [logr.ErrorEntry err msg])%list)).

Definition LogInfo (msg key : string) (value : Z) : M unit :=
  modify (withLog (fun l => (l ++ [logr.InfoEntry msg key value])%list)).

Definition setStatus (f : capm3.BareMetalClusterStatus -> capm3.BareMetalClusterStatus)
    : M unit :=
  modify (withBareMetalCluster (capm3.withStatus f)).

(** The error fields of the manager's infrastructure object. *)
Definition failureMessage (s : ClusterManager) : option string :=
  capm3.FailureMessage (capm3.Status (BareMetalCluster s)).

Definition failureReason (s : ClusterManager)
    : option capierrors.ClusterStatusError :=
  capm3.FailureReason (capm3.Status (BareMetalCluster s)).

Definition finalizers (s : ClusterManager) : list string :=
  metav1.Finalizers (capm3.ObjectMeta (BareMetalCluster s)).

Definition ready (s : ClusterManager) : bool :=
  capm3.Ready (capm3.Status (BareMetalCluster s)).

Definition lastUpdated (s : ClusterManager) : option Time :=
  capm3.LastUpdated (capm3.Status (BareMetalCluster s)).

Definition apiEndpoints (s : ClusterManager) : list capm3.APIEndpoint :=
  capm3.APIEndpoints (capm3.Status (BareMetalCluster s)).

Definition specEndpoint (s : ClusterManager) : capm3.APIEndpoint :=
  capm3.ControlPlaneEndpoint (capm3.Spec (BareMetalCluster s)).

(** [NewClusterManager]: both objects are required. *)
Definition NewClusterManager (c : client.Client) (cluster : option capi.Cluster)
    (bareMetalCluster : option capm3.BareMetalCluster) (clusterLog : logr.Logger)
    : option ClusterManager * option error :=
  match bareMetalCluster with
  | None =>
      (None, errors.New "BareMetalCluster is required when creating a ClusterManager")
  | Some bmc =>
      match cluster with
      | None =>
          (None, errors.New "Cluster is required when creating a ClusterManager")
      | Some cl =>
          (Some {| client := c; BareMetalCluster := bmc; Cluster := cl;
                   Log := clusterLog |}, None)
      end
  end.

(** [setError] sets the FailureMessage and FailureReason fields. *)
Definition setError (message : string) (reason : capierrors.ClusterStatusError)
    : M unit :=
  _ ← setStatus (capm3.withFailureMessage (Some message));
  setStatus (capm3.withFailureReason (Some reason)).

(** [clearError] resets both fields when one of them is set. *)
Definition clearError : M unit :=
  s ← get;
  if bool_decide (failureMessage s ≠ None) || bool_decide (failureReason s ≠ None)
  then
    _ ← setStatus (capm3.withFailureMessage None);
    setStatus (capm3.withFailureReason None)
  else mret tt.

(** [ControlPlaneEndpoint]: the endpoint of the spec as a one-element
    list.  [err] is declared and never assigned, so it is nil where it is
    logged and returned. *)
Definition ControlPlaneEndpoint : M (list capm3.APIEndpoint * option error) :=
  s ← get;
  let endPoint := specEndpoint s in
  let err : option error := None in
  if String.eqb (capm3.Host endPoint) "" || Z.eqb (capm3.Port endPoint) 0
  then
    _ ← LogError err "Host IP or PORT not set";
    mret ([], err)
  else
    mret ([ {| capm3.Host := capm3.Host endPoint;
               capm3.Port := capm3.Port endPoint |} ], None).

(** [Delete] is a no-op. *)
Definition Delete : M (option error) := mret None.

(** [UpdateClusterStatus]; [now] is the instant [metav1.Now()] reads.  The
    endpoints [ControlPlaneEndpoint] answers are discarded. *)
Definition UpdateClusterStatus (now : Time) : M (option error) :=
  '(_, err) ← ControlPlaneEndpoint;
  match err with
  | Some e =>
      _ ← setStatus (capm3.withReady false);
      _ ← setError "Invalid ControlPlaneEndpoint values"
            capierrors.InvalidConfigurationClusterError;
      mret (Some e)
  | None =>
      _ ← setStatus (capm3.withReady true);
      _ ← setStatus (capm3.withLastUpdated (Some now));
      mret None
  end.

Section Manager.

(** Declared with the API types of the repository, outside the manager's
    file: the validation of a spec and the finalizer token. *)
Variable IsValid : capm3.BareMetalClusterSpec -> option error.
Variable ClusterFinalizer : string.

(** [util.GetOwnerCluster]: the cluster owning an object, looked up
    through the client; it answers a cluster pointer and an error. *)
Variable GetOwnerCluster :
  client.Client -> metav1.ObjectMeta -> option capi.Cluster * option error.

(** [SetFinalizer] appends the token when it is not there. *)
Definition SetFinalizer : M unit :=
  s ← get;
  if negb (util.Contains (finalizers s) ClusterFinalizer)
  then
    modify (withBareMetalCluster (capm3.withObjectMeta
      (metav1.withFinalizers (finalizers s ++ [ClusterFinalizer])%list)))
  else mret tt.

(** [UnsetFinalizer] filters the token out. *)
Definition UnsetFinalizer : M unit :=
  s ← get;
  modify (withBareMetalCluster (capm3.withObjectMeta
    (metav1.withFinalizers (util.Filter (finalizers s) ClusterFinalizer)))).

(** [Create] validates the spec and records or clears the error. *)
Definition Create : M (option error) :=
  s ← get;
  let config := capm3.Spec (BareMetalCluster s) in
  let err := IsValid config in
  match err with
  | Some e =>
      _ ← setError "Invalid BareMetalCluster provided"
            capierrors.InvalidConfigurationClusterError;
      mret (Some e)
  | None =>
      _ ← clearError;
      mret None
  end.

(** [listDescendants]: the machines of the owning cluster.  When the
    listing fails, the error wrapped is [err], the one of the owner lookup,
    which is nil on that path. *)
Definition listDescendants : M (capi.MachineList * option error) :=
  s ← get;
  let machines := {| capi.Items := [] |} in
  let '(cluster, err) :=
    GetOwnerCluster (client s) (capm3.ObjectMeta (BareMetalCluster s)) in
  match err with
  | Some e => mret (machines, Some e)
  | None =>
      match cluster with
      | None => panic "invalid memory address or nil pointer dereference"
      | Some cl =>
          let ns := metav1.Namespace (capi.ClusterMeta cl) in
          let name := metav1.Name (capi.ClusterMeta cl) in
          let listOptions :=
            [ client.InNamespace ns;
              client.MatchingLabels {[ capi.ClusterLabelName := name ]} ] in
          let '(machines', listErr) :=
            client.List (client s) machines listOptions in
          match listErr with
          | Some _ =>
              let errMsg :=
                "failed to list BaremetalMachines for cluster "
                  +:+ ns +:+ "/" +:+ name in
              mret (machines', errors.Wrapf err errMsg)
          | None => mret (machines', None)
          end
      end
  end.

(** [CountDescendants]: the number of machines listed. *)
Definition CountDescendants : M (Z * option error) :=
  '(descendants, err) ← listDescendants;
  match err with
  | Some e =>
      _ ← LogError (Some e) "Failed to list descendants";
      mret (0%Z, Some e)
  | None =>
      let nbDescendants := Z.of_nat (length (capi.Items descendants)) in
      _ ← (if (nbDescendants >? 0)%Z
           then LogInfo "BaremetalCluster still has descendants - need to requeue"
                        "descendants" nbDescendants
           else mret tt);
      mret (nbDescendants, None)
  end.

(** The operations of [ClusterManagerInterface] that act on the
    infrastructure object, with the two error helpers. *)
Inductive Op :=
| OpCreate
| OpDelete
| OpUpdateClusterStatus (now : Time)
| OpSetFinalizer
| OpUnsetFinalizer
| OpSetError (message : string) (reason : capierrors.ClusterStatusError)
| OpClearError.

(** One call; methods without a result answer no error. *)
Definition call (o : Op) : M (option error) :=
  match o with
  | OpCreate => Create
  | OpDelete => Delete
  | OpUpdateClusterStatus now => UpdateClusterStatus now
  | OpSetFinalizer => _ ← SetFinalizer; mret None
  | OpUnsetFinalizer => _ ← UnsetFinalizer; mret None
  | OpSetError message reason => _ ← setError message reason; mret None
  | OpClearError => _ ← clearError; mret None
  end.

(** A sequence of calls, each on the manager the previous one left. *)
Fixpoint calls (ops : list Op) (s : ClusterManager) : outcome ClusterManager :=
  match ops with
  | [] => Returned s
  | o :: rest =>
      match call o s with
      | Returned (_, s') => calls rest s'
      | Panicked why => Panicked why
      end
  end.

End Manager.

(** ** Objects used to exercise the manager *)

(** Modelled from the spec: [BareMetalClusterSpec.IsValid] is declared with
    the API types, not among the sources; a spec is valid when its endpoint
    has a non-empty host and a non-zero port ("non-empty endpoint host/URL
    fields where required"). *)
Definition IsValidModel (config : capm3.BareMetalClusterSpec) : option error :=
  let ep := capm3.ControlPlaneEndpoint config in
  if String.eqb (capm3.Host ep) "" || Z.eqb (capm3.Port ep) 0
  then Some "Missing fields from Spec"
  else None.

(** The finalizer token used in the examples. *)
Definition exampleFinalizer : string :=
  "baremetalcluster.infrastructure.cluster.x-k8s.io".

Definition exampleMeta (name : string) (labels : gmap string string)
    (fs : list string) : metav1.ObjectMeta :=
  {| metav1.Name := name; metav1.Namespace := "ns"; metav1.Labels := labels;
     metav1.OwnerReferences := []; metav1.Finalizers := fs |}.

Definition exampleCluster : capi.Cluster :=
  {| capi.ClusterMeta := exampleMeta "c1" ∅ [] |}.

(** An owner lookup that always resolves to [exampleCluster]. *)
Definition exampleOwner (_ : client.Client) (_ : metav1.ObjectMeta)
    : option capi.Cluster * option error :=
  (Some exampleCluster, None).

Definition exampleMachine (ns cluster : string) : capi.Machine :=
  {| capi.MachineMeta :=
       {| metav1.Name := "m"; metav1.Namespace := ns;
          metav1.Labels := {[ capi.ClusterLabelName := cluster ]};
          metav1.OwnerReferences := []; metav1.Finalizers := [] |} |}.

Definition emptyStatus : capm3.BareMetalClusterStatus :=
  {| capm3.LastUpdated := None; capm3.FailureReason := None;
     capm3.FailureMessage := None; capm3.Ready := false;
     capm3.APIEndpoints := [] |}.

Definition failedStatus : capm3.BareMetalClusterStatus :=
  {| capm3.LastUpdated := None;
     capm3.FailureReason := Some capierrors.InvalidConfigurationClusterError;
     capm3.FailureMessage := Some "Invalid BareMetalCluster provided";
     capm3.Ready := false; capm3.APIEndpoints := [] |}.

Definition exampleManager (c : client.Client) (host : string) (port : Z)
    (fs : list string) (st : capm3.BareMetalClusterStatus) : ClusterManager :=
  {| client := c; Cluster := exampleCluster;
     BareMetalCluster :=
       {| capm3.ObjectMeta := exampleMeta "bmc1" ∅ fs;
          capm3.Spec :=
            {| capm3.ControlPlaneEndpoint :=
                 {| capm3.Host := host; capm3.Port := port |};
               capm3.NoCloudProvider := true |};
          capm3.Status := st |};
     Log := [] |}.

Definition emptyStore : client.Client := client.storeClient [] None.

(** What a run returns, when it does not panic. *)
Definition resultOf {A : Type} (r : outcome (A * ClusterManager)) : option A :=
  match r with
  | Returned (a, _) => Some a
  | Panicked _ => None
  end.

(** The error fields are both set or both unset. *)
Definition paired (s : ClusterManager) : bool :=
  match failureMessage s, failureReason s with
  | Some _, Some _ => true
  | None, None => true
  | _, _ => false
  end.

(** The spec's endpoint passes the test of [ControlPlaneEndpoint]. *)
Definition endpointSet (s : ClusterManager) : bool :=
  negb (String.eqb (capm3.Host (specEndpoint s)) ""
        || Z.eqb (capm3.Port (specEndpoint s)) 0).

(** The manager [UpdateClusterStatus] leaves: ready, stamped, and with the
    log line of [ControlPlaneEndpoint] when the endpoint is not set. *)
Definition statusUpdated (now : Time) (s : ClusterManager) : ClusterManager :=
  withBareMetalCluster
    (capm3.withStatus
       (fun st => capm3.withLastUpdated (Some now) (capm3.withReady true st)))
    (if endpointSet s then s
     else withLog
            (fun l => (l ++ [logr.ErrorEntry None "Host IP or PORT not set"])%list)
            s).

(** A machine is a descendant of a cluster when it lives in the cluster's
    namespace and carries the cluster's name under the cluster label. *)
Definition descendantOf (cl : capi.Cluster) (m : capi.Machine) : Prop :=
  metav1.Namespace (capi.MachineMeta m) = metav1.Namespace (capi.ClusterMeta cl) /\
  metav1.Labels (capi.MachineMeta m) !! capi.ClusterLabelName
    = Some (metav1.Name (capi.ClusterMeta cl)).

#[global] Instance descendantOf_dec (cl : capi.Cluster) (m : capi.Machine) :
  Decision (descendantOf cl m).
Proof. unfold descendantOf. apply _. Defined.

(** The options [listDescendants] passes to the store for a cluster. *)
Definition descendantOptions (cl : capi.Cluster) : list client.ListOption :=
  [ client.InNamespace (metav1.Namespace (capi.ClusterMeta cl));
    client.MatchingLabels
      {[ capi.ClusterLabelName := metav1.Name (capi.ClusterMeta cl) ]} ].

(** What no operation of the manager writes: the client, the owning
    cluster, the spec, and the metadata other than the finalizers. *)
Definition untouched (s s' : ClusterManager) : Prop :=
  client s' = client s /\ Cluster s' = Cluster s /\
  capm3.Spec (BareMetalCluster s') = capm3.Spec (BareMetalCluster s) /\
  metav1.withFinalizers [] (capm3.ObjectMeta (BareMetalCluster s'))
    = metav1.withFinalizers [] (capm3.ObjectMeta (BareMetalCluster s)).

(** The instant of the last [UpdateClusterStatus] call of a sequence, if
    it has one. *)
Fixpoint lastStamp (ops : list Op) (before : option Time) : option Time :=
  match ops with
  | [] => before
  | OpUpdateClusterStatus now :: rest => lastStamp rest (Some now)
  | _ :: rest => lastStamp rest before
  end.

Definition isUpdate (o : Op) : bool :=
  match o with
  | OpUpdateClusterStatus _ => true
  | _ => false
  end.

(** ** Package [api/v1alpha2]: the generated deep copies

    The functions of the generated file for [BareMetalCluster],
    [BareMetalClusterList], [BareMetalClusterSpec] and
    [BareMetalClusterStatus].  A pointer receiver is an [option] (nil is
    [None]); [Items] is an [option] too, since the copy tests it against
    nil. *)
Module v1alpha2.
Section DeepCopy.

(** The types the copies assign as a whole are declared outside the
    generated file and stay abstract. *)
Variables TypeMetaT ListMetaT SpecT StatusT : Type.

(** [metav1.ObjectMeta.DeepCopyInto]: from the receiver and what [out]
    holds to what [out] holds after the call. *)
Variable ObjectMeta_DeepCopyInto :
  metav1.ObjectMeta -> metav1.ObjectMeta -> metav1.ObjectMeta.

Record BareMetalCluster := {
  TypeMeta : TypeMetaT;
  ObjectMeta : metav1.ObjectMeta;
  Spec : SpecT;
  Status : StatusT
}.

Record BareMetalClusterList := {
  ListTypeMeta : TypeMetaT;
  ListMeta : ListMetaT;
  Items : option (list BareMetalCluster)
}.

(** The zero values [new] and [make] allocate. *)
Variable zeroCluster : BareMetalCluster.
Variable zeroList : BareMetalClusterList.
Variable zeroSpec : SpecT.
Variable zeroStatus : StatusT.

(** [(in *BareMetalCluster) DeepCopyInto(out)]: the value [out] holds
    after the call. *)
Definition BareMetalCluster_DeepCopyInto (in_ out : BareMetalCluster)
    : BareMetalCluster :=
  let out := in_ in
  let out := {| TypeMeta := TypeMeta in_; ObjectMeta := ObjectMeta out;
                Spec := Spec out; Status := Status out |} in
  let out := {| TypeMeta := TypeMeta out;
                ObjectMeta := ObjectMeta_DeepCopyInto (ObjectMeta in_) (ObjectMeta out);
                Spec := Spec out; Status := Status out |} in
  let out := {| TypeMeta := TypeMeta out; ObjectMeta := ObjectMeta out;
                Spec := Spec in_; Status := Status out |} in
  {| TypeMeta := TypeMeta out; ObjectMeta := ObjectMeta out;
     Spec := Spec out; Status := Status in_ |}.

Definition BareMetalCluster_DeepCopy (in_ : option BareMetalCluster)
    : option BareMetalCluster :=
  match in_ with
  | None => None
  | Some v => Some (BareMetalCluster_DeepCopyInto v zeroCluster)
  end.

(** [DeepCopyObject] answers the copy as a [runtime.Object], and an
    untyped nil when the copy is nil. *)
Definition BareMetalCluster_DeepCopyObject (in_ : option BareMetalCluster)
    : option BareMetalCluster :=
  match BareMetalCluster_DeepCopy in_ with
  | Some c => Some c
  | None => None
  end.

(** The loop that ranges over the indices of the input slice and copies
    item [i] of it into item [i] of the output slice, over the indices
    [idx]; an index outside of a slice panics. *)
Fixpoint rangeDeepCopyInto (idx : list nat) (in_ out : list BareMetalCluster)
    : outcome (list BareMetalCluster) :=
  match idx with
  | [] => Returned out
  | i :: rest =>
      match in_ !! i, out !! i with
      | Some a, Some b =>
          rangeDeepCopyInto rest in_ (<[i := BareMetalCluster_DeepCopyInto a b]> out)
      | _, _ => Panicked "index out of range"
      end
  end.

Definition BareMetalClusterList_DeepCopyInto (in_ out : BareMetalClusterList)
    : outcome BareMetalClusterList :=
  let out := in_ in
  let out := {| ListTypeMeta := ListTypeMeta in_; ListMeta := ListMeta out;
                Items := Items out |} in
  let out := {| ListTypeMeta := ListTypeMeta out; ListMeta := ListMeta in_;
                Items := Items out |} in
  match Items in_ with
  | Some items =>
      let fresh := replicate (length items) zeroCluster in
      match rangeDeepCopyInto (seq 0 (length items)) items fresh with
      | Returned copied =>
          Returned {| ListTypeMeta := ListTypeMeta out; ListMeta := ListMeta out;
                      Items := Some copied |}
      | Panicked why => Panicked why
      end
  | None => Returned out
  end.

Definition BareMetalClusterList_DeepCopy (in_ : option BareMetalClusterList)
    : outcome (option BareMetalClusterList) :=
  match in_ with
  | None => Returned None
  | Some v =>
      match BareMetalClusterList_DeepCopyInto v zeroList with
      | Returned out => Returned (Some out)
      | Panicked why => Panicked why
      end
  end.

Definition BareMetalClusterList_DeepCopyObject (in_ : option BareMetalClusterList)
    : outcome (option BareMetalClusterList) :=
  match BareMetalClusterList_DeepCopy in_ with
  | Returned (Some c) => Returned (Some c)
  | Returned None => Returned None
  | Panicked why => Panicked why
  end.

(** The spec and the status are copied by one assignment. *)
Definition BareMetalClusterSpec_DeepCopyInto (in_ out : SpecT) : SpecT := in_.

Definition BareMetalClusterSpec_DeepCopy (in_ : option SpecT) : option SpecT :=
  match in_ with
  | None => None
  | Some v => Some (BareMetalClusterSpec_DeepCopyInto v zeroSpec)
  end.

Definition BareMetalClusterStatus_DeepCopyInto (in_ out : StatusT) : StatusT := in_.

Definition BareMetalClusterStatus_DeepCopy (in_ : option StatusT) : option StatusT :=
  match in_ with
  | None => None
  | Some v => Some (BareMetalClusterStatus_DeepCopyInto v zeroStatus)
  end.

End DeepCopy.

Arguments TypeMeta {TypeMetaT SpecT StatusT} _.
Arguments ObjectMeta {TypeMetaT SpecT StatusT} _.
Arguments Spec {TypeMetaT SpecT StatusT} _.
Arguments Status {TypeMetaT SpecT StatusT} _.
Arguments ListTypeMeta {TypeMetaT ListMetaT SpecT StatusT} _.
Arguments ListMeta {TypeMetaT ListMetaT SpecT StatusT} _.
Arguments Items {TypeMetaT ListMetaT SpecT StatusT} _.
Arguments BareMetalCluster_DeepCopyInto {TypeMetaT SpecT StatusT} _ _ _.
Arguments BareMetalCluster_DeepCopy {TypeMetaT SpecT StatusT} _ _ _.
Arguments BareMetalCluster_DeepCopyObject {TypeMetaT SpecT StatusT} _ _ _.
Arguments rangeDeepCopyInto {TypeMetaT SpecT StatusT} _ _ _ _.
Arguments BareMetalClusterList_DeepCopyInto {TypeMetaT ListMetaT SpecT StatusT} _ _ _ _.
Arguments BareMetalClusterList_DeepCopy {TypeMetaT ListMetaT SpecT StatusT} _ _ _ _.
Arguments BareMetalClusterList_DeepCopyObject {TypeMetaT ListMetaT SpecT StatusT} _ _ _ _.

End v1alpha2.

(** * Properties *)

(** Unfolds the monadic plumbing of a method body. *)
Ltac run_method :=
  unfold call, Create, Delete, UpdateClusterStatus, ControlPlaneEndpoint,
    SetFinalizer, UnsetFinalizer, setError, clearError, CountDescendants,
    listDescendants, LogError, LogInfo, setStatus, panic, modify, get,
    mbind, mret, M_bind, M_ret;
  cbn.

(** ** The string helpers *)

Lemma Contains_true_iff (l : list string) (x : string) :
  util.Contains l x = true <-> x ∈ l.
Proof.
  induction l as [|y l IH]; cbn.
  - split; [discriminate | intros H; inversion H].
  - destruct (String.eqb_spec y x) as [->|Hne].
    + split; [intros _; left | reflexivity].
    + rewrite IH. split; [intros H; right; exact H |].
      intros H. apply elem_of_cons in H as [->|H]; [congruence | exact H].
Qed.

Lemma Contains_false_iff (l : list string) (x : string) :
  util.Contains l x = false <-> x ∉ l.
Proof.
  rewrite <- Contains_true_iff. destruct (util.Contains l x); split; congruence.
Qed.

Lemma Contains_appended (l : list string) (x : string) :
  util.Contains (l ++ [x])%list x = true.
Proof. apply Contains_true_iff, elem_of_app. right. left. Qed.

Lemma Filter_absent (l : list string) (x : string) :
  x ∉ l -> util.Filter l x = l.
Proof.
  induction l as [|y l IH]; cbn; [reflexivity |].
  intros H. apply not_elem_of_cons in H as [Hne Hl].
  destruct (String.eqb_spec y x) as [->|_]; [congruence |].
  cbn. now rewrite IH.
Qed.

Lemma Filter_removes (l : list string) (x : string) : x ∉ util.Filter l x.
Proof.
  induction l as [|y l IH]; cbn; [intros H; inversion H |].
  destruct (String.eqb_spec y x) as [->|Hne]; cbn; [exact IH |].
  intros H. apply elem_of_cons in H as [->|H]; [congruence | exact (IH H)].
Qed.

(** ** Construction *)

(** C4. [NewClusterManager] answers no manager and an error exactly when the
    Cluster or the BareMetalCluster is nil, and a manager and no error
    exactly when both are given. *)
Theorem NewClusterManager_fails_iff_absent (c : client.Client)
    (cluster : option capi.Cluster) (bmc : option capm3.BareMetalCluster)
    (lg : logr.Logger) :
  let r := NewClusterManager c cluster bmc lg in
  ((r.1 = None /\ r.2 <> None) <-> (cluster = None \/ bmc = None)) /\
  ((r.1 <> None /\ r.2 = None) <-> (cluster <> None /\ bmc <> None)).
Proof.
  unfold NewClusterManager, errors.New.
  destruct cluster as [cl|], bmc as [b|]; cbn;
    (split; (split; [intros [H1 H2] | intros H]));
    try (split; congruence); try congruence;
    try (left; reflexivity); try (right; reflexivity);
    try (destruct H as [H|H]; congruence);
    try (destruct H as [H1 H2]; congruence).
Qed.

(** ** Finalizers *)

Lemma SetFinalizer_present (tok : string) (s : ClusterManager) :
  util.Contains (finalizers s) tok = true ->
  SetFinalizer tok s = Returned (tt, s).
Proof. intros H. run_method. now rewrite H. Qed.

(** C5. [SetFinalizer] returns, and a second call leaves the manager, hence
    its finalizer list, as the first one left it; [UnsetFinalizer] returns
    the manager unchanged when the token is not in the list.  Both answer
    [tt]: a run of either never panics and carries no error. *)
Theorem finalizer_toggles_idempotent (tok : string) (s : ClusterManager) :
  (exists s1, SetFinalizer tok s = Returned (tt, s1) /\
              SetFinalizer tok s1 = Returned (tt, s1) /\
              tok ∈ finalizers s1) /\
  (tok ∉ finalizers s -> UnsetFinalizer tok s = Returned (tt, s)).
Proof.
  split.
  - destruct (util.Contains (finalizers s) tok) eqn:Hc.
    + exists s. rewrite SetFinalizer_present by exact Hc.
      repeat split. now apply Contains_true_iff.
    + eexists. split; [run_method; rewrite Hc; reflexivity |].
      split.
      * apply SetFinalizer_present. cbn. apply Contains_appended.
      * cbn. apply elem_of_app. right. left.
  - intros Habs. run_method.
    rewrite (Filter_absent _ _ Habs).
    destruct s as [c cl [[n ns lb ow fs] sp st] lg]. reflexivity.
Qed.

(** ** The error record *)

(** C6. After [setError] both fields are set; [clearError] right after
    leaves both unset, whatever they held before; and [clearError] on a
    manager with both fields unset returns it unchanged. *)
Theorem setError_then_clearError_unsets (message : string)
    (reason : capierrors.ClusterStatusError) (s : ClusterManager) :
  (exists s1 s2,
      setError message reason s = Returned (tt, s1) /\
      failureMessage s1 = Some message /\ failureReason s1 = Some reason /\
      clearError s1 = Returned (tt, s2) /\
      failureMessage s2 = None /\ failureReason s2 = None) /\
  (failureMessage s = None -> failureReason s = None ->
   clearError s = Returned (tt, s)).
Proof.
  split.
  - do 2 eexists. split; [run_method; reflexivity |].
    split; [reflexivity |]. split; [reflexivity |].
    split; [run_method; reflexivity |]. split; reflexivity.
  - intros Hm Hr. run_method. unfold failureMessage, failureReason in *.
    rewrite Hm, Hr. reflexivity.
Qed.

(** ** Create *)

Lemma Create_invalid (IsValid : capm3.BareMetalClusterSpec -> option error)
    (s : ClusterManager) (e : error) :
  IsValid (capm3.Spec (BareMetalCluster s)) = Some e ->
  exists s', Create IsValid s = Returned (Some e, s') /\
    failureMessage s' = Some "Invalid BareMetalCluster provided" /\
    failureReason s' = Some capierrors.InvalidConfigurationClusterError.
Proof.
  intros He. eexists. split; [run_method; rewrite He; reflexivity |].
  split; reflexivity.
Qed.

Lemma Create_valid (IsValid : capm3.BareMetalClusterSpec -> option error)
    (s : ClusterManager) :
  IsValid (capm3.Spec (BareMetalCluster s)) = None ->
  exists s', Create IsValid s = Returned (None, s') /\
    failureMessage s' = None /\ failureReason s' = None.
Proof.
  intros Hv. run_method. rewrite Hv. cbn.
  destruct (failureMessage s) eqn:Hm, (failureReason s) eqn:Hr; cbn;
    eexists; (split; [reflexivity |]); cbn; auto.
Qed.

(** C7. When the validation of the spec fails, [Create] records the message
    and the invalid-configuration reason and returns the validation error;
    when it succeeds, [Create] leaves both error fields unset and returns no
    error. *)
Theorem Create_records_or_clears
    (IsValid : capm3.BareMetalClusterSpec -> option error) (s : ClusterManager) :
  (forall e, IsValid (capm3.Spec (BareMetalCluster s)) = Some e ->
     exists s', Create IsValid s = Returned (Some e, s') /\
       failureMessage s' = Some "Invalid BareMetalCluster provided" /\
       failureReason s' = Some capierrors.InvalidConfigurationClusterError) /\
  (IsValid (capm3.Spec (BareMetalCluster s)) = None ->
     exists s', Create IsValid s = Returned (None, s') /\
       failureMessage s' = None /\ failureReason s' = None).
Proof.
  split.
  - intros e He. now apply Create_invalid.
  - intros Hv. now apply Create_valid.
Qed.

(** ** The control-plane endpoint and the status *)

(** [ControlPlaneEndpoint] returns for every manager, with a nil error. *)
Lemma ControlPlaneEndpoint_run (s : ClusterManager) :
  ControlPlaneEndpoint s =
  if endpointSet s
  then Returned (([specEndpoint s], None), s)
  else Returned (([], None),
         withLog
           (fun l => (l ++ [logr.ErrorEntry None "Host IP or PORT not set"])%list)
           s).
Proof.
  run_method. unfold endpointSet.
  destruct (String.eqb _ _ || Z.eqb _ _); cbn; [reflexivity |].
  destruct (specEndpoint s); reflexivity.
Qed.

(** [UpdateClusterStatus] takes its success branch on every manager. *)
Lemma UpdateClusterStatus_run (now : Time) (s : ClusterManager) :
  UpdateClusterStatus now s = Returned (None, statusUpdated now s).
Proof.
  unfold UpdateClusterStatus, mbind, M_bind. rewrite ControlPlaneEndpoint_run.
  unfold statusUpdated. destruct (endpointSet s); reflexivity.
Qed.

Lemma endpointSet_true (s : ClusterManager) :
  capm3.Host (specEndpoint s) <> "" -> capm3.Port (specEndpoint s) <> 0 ->
  endpointSet s = true.
Proof.
  intros Hh Hp. unfold endpointSet.
  destruct (String.eqb_spec (capm3.Host (specEndpoint s)) ""); [congruence |].
  destruct (Z.eqb_spec (capm3.Port (specEndpoint s)) 0); [congruence |].
  reflexivity.
Qed.

Lemma endpointSet_false (s : ClusterManager) :
  capm3.Host (specEndpoint s) = "" \/ capm3.Port (specEndpoint s) = 0 ->
  endpointSet s = false.
Proof.
  intros H. unfold endpointSet.
  destruct H as [-> | ->]; cbn; [reflexivity |].
  now rewrite orb_true_r.
Qed.

(** C1. On the spec with an empty host and a zero port,
    [UpdateClusterStatus] returns no error, sets Ready to true, stamps
    LastUpdated and records no error: its failure branch, which would set
    Ready to false and record the invalid-configuration error, is not
    taken. *)
Theorem UpdateClusterStatus_unset_endpoint_succeeds :
  let s := exampleManager emptyStore "" 0 [] emptyStatus in
  exists s', UpdateClusterStatus 7 s = Returned (None, s') /\
    ready s' = true /\ failureMessage s' = None /\ failureReason s' = None /\
    lastUpdated s' = Some 7.
Proof. eexists. split; [vm_compute; reflexivity |]. repeat split. Qed.

(** C10. [ControlPlaneEndpoint] returns a nil error for every spec, with no
    endpoint when the host is empty or the port zero; so
    [UpdateClusterStatus] returns no error and sets Ready to true for every
    spec. *)
Theorem ControlPlaneEndpoint_never_fails (now : Time) (s : ClusterManager) :
  (exists eps s1, ControlPlaneEndpoint s = Returned ((eps, None), s1) /\
     (capm3.Host (specEndpoint s) = "" \/ capm3.Port (specEndpoint s) = 0 ->
      eps = [])) /\
  (exists s', UpdateClusterStatus now s = Returned (None, s') /\
     ready s' = true).
Proof.
  split.
  - rewrite ControlPlaneEndpoint_run. destruct (endpointSet s) eqn:He.
    + do 2 eexists. split; [reflexivity |].
      intros H. apply endpointSet_false in H. congruence.
    + do 2 eexists. split; [reflexivity | reflexivity].
  - rewrite UpdateClusterStatus_run. eexists. split; reflexivity.
Qed.

(** C2, amended.  For every spec with a non-empty host and a
    non-zero port, [UpdateClusterStatus] returns no error, sets Ready to
    true, stamps LastUpdated with the current time, and leaves both error
    fields as they were before the call (so nil when they were nil). *)
Theorem UpdateClusterStatus_valid_endpoint (now : Time) (s : ClusterManager) :
  capm3.Host (specEndpoint s) <> "" -> capm3.Port (specEndpoint s) <> 0 ->
  exists s', UpdateClusterStatus now s = Returned (None, s') /\
    ready s' = true /\ lastUpdated s' = Some now /\
    failureMessage s' = failureMessage s /\
    failureReason s' = failureReason s.
Proof.
  intros Hh Hp. rewrite UpdateClusterStatus_run. eexists.
  split; [reflexivity |]. unfold statusUpdated.
  rewrite (endpointSet_true s Hh Hp). repeat split.
Qed.

(** C3, amended.  With the endpoint 192.168.111.249:6443 in the
    spec, [ControlPlaneEndpoint] answers exactly that one endpoint and no
    error; [UpdateClusterStatus] returns no error and sets Ready to true,
    and the endpoints held by the status are those held before the call. *)
Theorem UpdateClusterStatus_example_endpoint (now : Time) (s : ClusterManager) :
  specEndpoint s = {| capm3.Host := "192.168.111.249"; capm3.Port := 6443 |} ->
  ControlPlaneEndpoint s =
    Returned (([ {| capm3.Host := "192.168.111.249"; capm3.Port := 6443 |} ],
               None), s) /\
  exists s', UpdateClusterStatus now s = Returned (None, s') /\
    ready s' = true /\ apiEndpoints s' = apiEndpoints s.
Proof.
  intros He.
  assert (Hs : endpointSet s = true) by (unfold endpointSet; now rewrite He).
  split.
  - rewrite ControlPlaneEndpoint_run, Hs, He. reflexivity.
  - rewrite UpdateClusterStatus_run. eexists. split; [reflexivity |].
    unfold statusUpdated. rewrite Hs. split; reflexivity.
Qed.

(** ** Descendants *)


(** X2. An error of the owner lookup is returned by [CountDescendants],
    with the count 0. *)
Lemma CountDescendants_owner_failure
    (GetOwnerCluster :
       client.Client -> metav1.ObjectMeta -> option capi.Cluster * option error)
    (s : ClusterManager) (cl : option capi.Cluster) (e : error) :
  GetOwnerCluster (client s) (capm3.ObjectMeta (BareMetalCluster s)) = (cl, Some e) ->
  resultOf (CountDescendants GetOwnerCluster s) = Some (0, Some e).
Proof. intros Ho. run_method. rewrite Ho. reflexivity. Qed.



(** When the owner is found and the listing fails, [listDescendants] wraps
    the nil error of the owner lookup: [CountDescendants] returns the length
    of the list object and a nil error. *)
Lemma CountDescendants_list_failure
    (GetOwnerCluster :
       client.Client -> metav1.ObjectMeta -> option capi.Cluster * option error)
    (s : ClusterManager) (cl : capi.Cluster) (ms : capi.MachineList) (e : error) :
  GetOwnerCluster (client s) (capm3.ObjectMeta (BareMetalCluster s))
    = (Some cl, None) ->
  client.List (client s) {| capi.Items := [] |} (descendantOptions cl)
    = (ms, Some e) ->
  resultOf (CountDescendants GetOwnerCluster s)
    = Some (Z.of_nat (length (capi.Items ms)), None).
Proof.
  intros Ho Hl. run_method. rewrite Ho. unfold descendantOptions in Hl.
  cbn in Hl |- *. rewrite Hl. cbn.
  destruct (Z.of_nat (length (capi.Items ms)) >? 0); reflexivity.
Qed.

(** C8. Against a store whose listing fails, with the owning cluster found,
    [CountDescendants] returns the count 0 and a nil error: the failure of
    the list operation does not reach the caller. *)
Theorem CountDescendants_swallows_list_failure :
  resultOf
    (CountDescendants exampleOwner
       (exampleManager
          (client.storeClient [exampleMachine "ns" "c1"] (Some "connection refused"))
          "192.168.111.249" 6443 [] emptyStatus))
  = Some (0, None).
Proof.
  apply (CountDescendants_list_failure exampleOwner _ exampleCluster
           {| capi.Items := [] |} "connection refused"); reflexivity.
Qed.

(** ** The pairing of the error fields *)

Lemma paired_unset (s : ClusterManager) :
  failureMessage s = None -> failureReason s = None -> paired s = true.
Proof. intros Hm Hr. unfold paired. now rewrite Hm, Hr. Qed.

Lemma paired_same (s s' : ClusterManager) :
  failureMessage s' = failureMessage s -> failureReason s' = failureReason s ->
  paired s = true -> paired s' = true.
Proof. intros Hm Hr. unfold paired. now rewrite Hm, Hr. Qed.

(** Every call returns and keeps the error fields paired. *)
Lemma call_paired (IsValid : capm3.BareMetalClusterSpec -> option error)
    (tok : string) (o : Op) (s : ClusterManager) :
  paired s = true ->
  exists e s', call IsValid tok o s = Returned (e, s') /\ paired s' = true.
Proof.
  intros Hp. destruct o as [| |now| | |message reason|].
  - destruct (IsValid (capm3.Spec (BareMetalCluster s))) as [e|] eqn:Hv.
    + destruct (Create_invalid IsValid s e Hv) as (s' & Hrun & Hm & Hr).
      exists (Some e), s'. split; [exact Hrun |].
      unfold paired. now rewrite Hm, Hr.
    + destruct (Create_valid IsValid s Hv) as (s' & Hrun & Hm & Hr).
      exists None, s'. split; [exact Hrun | now apply paired_unset].
  - exists None, s. split; [reflexivity | exact Hp].
  - exists None, (statusUpdated now s). split; [apply UpdateClusterStatus_run |].
    apply (paired_same s); [| | exact Hp];
      unfold statusUpdated; destruct (endpointSet s); reflexivity.
  - run_method.
    destruct (util.Contains (finalizers s) tok); cbn;
      eexists None, _; (split; [reflexivity |]);
      [exact Hp | apply (paired_same s); [reflexivity | reflexivity | exact Hp]].
  - eexists None, _. split; [run_method; reflexivity |].
    apply (paired_same s); [reflexivity | reflexivity | exact Hp].
  - eexists None, _. split; [run_method; reflexivity | reflexivity].
  - run_method.
    destruct (failureMessage s) eqn:Hm, (failureReason s) eqn:Hr; cbn;
      eexists None, _; (split; [reflexivity |]); try reflexivity.
    apply paired_unset; assumption.
Qed.

Lemma calls_paired (IsValid : capm3.BareMetalClusterSpec -> option error)
    (tok : string) (ops : list Op) (s : ClusterManager) :
  paired s = true ->
  exists s', calls IsValid tok ops s = Returned s' /\ paired s' = true.
Proof.
  revert s. induction ops as [|o ops IH]; intros s Hp.
  - exists s. split; [reflexivity | exact Hp].
  - destruct (call_paired IsValid tok o s Hp) as (e & s1 & Hrun & Hp1).
    destruct (IH s1 Hp1) as (s' & Hrest & Hp').
    exists s'. cbn. rewrite Hrun. split; assumption.
Qed.

(** C9. From a manager with both error fields unset, every sequence of
    Create, Delete, UpdateClusterStatus, SetFinalizer, UnsetFinalizer,
    setError and clearError calls returns, and leaves FailureMessage and
    FailureReason both set or both nil. *)
Theorem error_fields_paired_after_calls
    (IsValid : capm3.BareMetalClusterSpec -> option error) (tok : string)
    (ops : list Op) (s : ClusterManager) :
  failureMessage s = None -> failureReason s = None ->
  exists s', calls IsValid tok ops s = Returned s' /\ paired s' = true.
Proof.
  intros Hm Hr. apply calls_paired, paired_unset; assumption.
Qed.

(** * The properties at concrete managers *)

(** C2, counterexample.  A manager whose spec holds 192.168.111.249:6443
    and whose status holds the error a failed [Create] recorded: the call
    returns no error and the error record is still there. *)
Lemma UpdateClusterStatus_keeps_recorded_error :
  let s := exampleManager emptyStore "192.168.111.249" 6443 [] failedStatus in
  capm3.Host (specEndpoint s) <> "" /\ capm3.Port (specEndpoint s) <> 0 /\
  exists s', UpdateClusterStatus 7 s = Returned (None, s') /\
    failureMessage s' = Some "Invalid BareMetalCluster provided" /\
    failureReason s' = Some capierrors.InvalidConfigurationClusterError.
Proof.
  cbn zeta. split; [discriminate |]. split; [discriminate |].
  eexists. split; [vm_compute; reflexivity |]. split; reflexivity.
Qed.

(** C2, witness of the amended statement. *)
Lemma UpdateClusterStatus_valid_endpoint_witness :
  let s := exampleManager emptyStore "192.168.111.249" 6443 [] failedStatus in
  (capm3.Host (specEndpoint s) <> "" /\ capm3.Port (specEndpoint s) <> 0) /\
  exists s', UpdateClusterStatus 7 s = Returned (None, s') /\
    ready s' = true /\ lastUpdated s' = Some 7 /\
    failureMessage s' = failureMessage s /\
    failureReason s' = failureReason s.
Proof.
  cbn zeta. split; [split; discriminate |].
  apply (UpdateClusterStatus_valid_endpoint 7
           (exampleManager emptyStore "192.168.111.249" 6443 [] failedStatus));
    discriminate.
Defined.

(** C3, counterexample.  From a status that holds no endpoint, the call
    with 192.168.111.249:6443 in the spec returns with a status that still
    holds none. *)
Lemma UpdateClusterStatus_stores_no_endpoint :
  let s := exampleManager emptyStore "192.168.111.249" 6443 [] emptyStatus in
  specEndpoint s = {| capm3.Host := "192.168.111.249"; capm3.Port := 6443 |} /\
  exists s', UpdateClusterStatus 7 s = Returned (None, s') /\
    ready s' = true /\ apiEndpoints s' = [].
Proof.
  cbn zeta. split; [reflexivity |].
  eexists. split; [vm_compute; reflexivity |]. split; reflexivity.
Qed.

(** C3, witness of the amended statement. *)
Lemma UpdateClusterStatus_example_endpoint_witness :
  let s := exampleManager emptyStore "192.168.111.249" 6443 [] emptyStatus in
  specEndpoint s = {| capm3.Host := "192.168.111.249"; capm3.Port := 6443 |} /\
  ControlPlaneEndpoint s =
    Returned (([ {| capm3.Host := "192.168.111.249"; capm3.Port := 6443 |} ],
               None), s) /\
  exists s', UpdateClusterStatus 7 s = Returned (None, s') /\
    ready s' = true /\ apiEndpoints s' = apiEndpoints s.
Proof.
  cbn zeta. split; [reflexivity |].
  apply (UpdateClusterStatus_example_endpoint 7
           (exampleManager emptyStore "192.168.111.249" 6443 [] emptyStatus)).
  reflexivity.
Defined.

(** C5, witness: a list that holds another token only. *)
Lemma finalizer_toggles_idempotent_witness :
  let s := exampleManager emptyStore "192.168.111.249" 6443
             ["foregroundDeletion"] emptyStatus in
  (exampleFinalizer ∉ finalizers s) /\
  UnsetFinalizer exampleFinalizer s = Returned (tt, s).
Proof.
  cbn zeta.
  assert (Habs : exampleFinalizer ∉
            finalizers (exampleManager emptyStore "192.168.111.249" 6443
                          ["foregroundDeletion"] emptyStatus)).
  { apply Contains_false_iff. reflexivity. }
  split; [exact Habs |].
  apply (proj2 (finalizer_toggles_idempotent exampleFinalizer
                  (exampleManager emptyStore "192.168.111.249" 6443
                     ["foregroundDeletion"] emptyStatus))).
  exact Habs.
Defined.

(** C6, witness: [clearError] on a status with no error recorded. *)
Lemma setError_then_clearError_unsets_witness :
  let s := exampleManager emptyStore "192.168.111.249" 6443 [] emptyStatus in
  (failureMessage s = None /\ failureReason s = None) /\
  clearError s = Returned (tt, s).
Proof.
  cbn zeta. split; [split; reflexivity |].
  apply (proj2 (setError_then_clearError_unsets "abc"
                  capierrors.InvalidConfigurationClusterError
                  (exampleManager emptyStore "192.168.111.249" 6443 []
                     emptyStatus))); reflexivity.
Defined.

(** C7, witness: a spec with no endpoint is refused by [IsValidModel], and
    a spec with one clears the error recorded before. *)
Lemma Create_records_or_clears_witness :
  let bad := exampleManager emptyStore "" 0 [] emptyStatus in
  let good := exampleManager emptyStore "192.168.111.249" 6443 [] failedStatus in
  (IsValidModel (capm3.Spec (BareMetalCluster bad)) = Some "Missing fields from Spec" /\
   exists s', Create IsValidModel bad = Returned (Some "Missing fields from Spec", s') /\
     failureMessage s' = Some "Invalid BareMetalCluster provided" /\
     failureReason s' = Some capierrors.InvalidConfigurationClusterError) /\
  (IsValidModel (capm3.Spec (BareMetalCluster good)) = None /\
   exists s', Create IsValidModel good = Returned (None, s') /\
     failureMessage s' = None /\ failureReason s' = None).
Proof.
  cbn zeta. split; (split; [reflexivity |]).
  - apply (proj1 (Create_records_or_clears IsValidModel
                    (exampleManager emptyStore "" 0 [] emptyStatus))).
    reflexivity.
  - apply (proj2 (Create_records_or_clears IsValidModel
                    (exampleManager emptyStore "192.168.111.249" 6443 []
                       failedStatus))).
    reflexivity.
Defined.

(** C9, witness: a run through every operation. *)
Lemma error_fields_paired_after_calls_witness :
  let s := exampleManager emptyStore "" 0 [] emptyStatus in
  let ops := [ OpSetError "abc" capierrors.InvalidConfigurationClusterError;
               OpUpdateClusterStatus 3; OpSetFinalizer; OpCreate;
               OpClearError; OpCreate; OpUnsetFinalizer; OpDelete ] in
  (failureMessage s = None /\ failureReason s = None) /\
  exists s', calls IsValidModel exampleFinalizer ops s = Returned s' /\
    paired s' = true.
Proof.
  cbn zeta. split; [split; reflexivity |].
  apply (error_fields_paired_after_calls IsValidModel exampleFinalizer
           [ OpSetError "abc" capierrors.InvalidConfigurationClusterError;
             OpUpdateClusterStatus 3; OpSetFinalizer; OpCreate;
             OpClearError; OpCreate; OpUnsetFinalizer; OpDelete ]
           (exampleManager emptyStore "" 0 [] emptyStatus)); reflexivity.
Defined.

(** C10, witness: the spec with an empty host and a zero port. *)
Lemma ControlPlaneEndpoint_never_fails_witness :
  let s := exampleManager emptyStore "" 0 [] emptyStatus in
  (capm3.Host (specEndpoint s) = "" \/ capm3.Port (specEndpoint s) = 0) /\
  exists eps s1, ControlPlaneEndpoint s = Returned ((eps, None), s1) /\
    (capm3.Host (specEndpoint s) = "" \/ capm3.Port (specEndpoint s) = 0 ->
     eps = []).
Proof.
  cbn zeta. split; [left; reflexivity |].
  exact (proj1 (ControlPlaneEndpoint_never_fails 7
                  (exampleManager emptyStore "" 0 [] emptyStatus))).
Defined.


(** X2, witness: a lookup that answers "not found". *)
Lemma CountDescendants_owner_failure_witness :
  let s := exampleManager emptyStore "192.168.111.249" 6443 [] emptyStatus in
  resultOf (CountDescendants (fun _ _ => (None, Some "cluster not found")) s)
  = Some (0, Some "cluster not found").
Proof.
  cbn zeta.
  apply (CountDescendants_owner_failure
           (fun _ _ => (None, Some "cluster not found"))
           (exampleManager emptyStore "192.168.111.249" 6443 [] emptyStatus)
           None "cluster not found").
  reflexivity.
Defined.

(** * Further properties of the manager *)

(** ** Finalizers *)

Lemma SetFinalizer_run (tok : string) (s : ClusterManager) :
  SetFinalizer tok s =
  Returned (tt,
    if util.Contains (finalizers s) tok then s
    else withBareMetalCluster (capm3.withObjectMeta
           (metav1.withFinalizers (finalizers s ++ [tok])%list)) s).
Proof. run_method. destruct (util.Contains (finalizers s) tok); reflexivity. Qed.

Lemma Filter_elem (l : list string) (x y : string) :
  y ∈ util.Filter l x <-> y ∈ l /\ y <> x.
Proof.
  induction l as [|z l IH]; cbn.
  - split; [intros H; inversion H | intros [H _]; inversion H].
  - destruct (String.eqb_spec z x) as [->|Hne]; cbn.
    + rewrite IH, elem_of_cons. intuition congruence.
    + rewrite !elem_of_cons, IH. intuition congruence.
Qed.

Lemma Filter_sublist (l : list string) (x : string) :
  util.Filter l x `sublist_of` l.
Proof.
  induction l as [|z l IH]; cbn; [constructor |].
  destruct (negb (String.eqb z x)); [now apply sublist_skip | now apply sublist_cons].
Qed.

(** X3. [SetFinalizer] returns and only ever appends: the finalizers that
    were there stay, in their order, at the front of the list; the list
    holds what it held and the token; a list with no duplicate keeps having
    none; and the spec and the status are not written. *)
Theorem SetFinalizer_only_appends (tok : string) (s : ClusterManager) :
  exists s1, SetFinalizer tok s = Returned (tt, s1) /\
    finalizers s `prefix_of` finalizers s1 /\
    (forall x, x ∈ finalizers s1 <-> x ∈ finalizers s \/ x = tok) /\
    (NoDup (finalizers s) -> NoDup (finalizers s1)) /\
    capm3.Spec (BareMetalCluster s1) = capm3.Spec (BareMetalCluster s) /\
    capm3.Status (BareMetalCluster s1) = capm3.Status (BareMetalCluster s).
Proof.
  rewrite SetFinalizer_run. eexists. split; [reflexivity |].
  destruct (util.Contains (finalizers s) tok) eqn:Hc.
  - apply Contains_true_iff in Hc.
    split; [reflexivity |]. split; [| split; [tauto | split; reflexivity]].
    intros x. split; [now left | intros [H | ->]; assumption].
  - apply Contains_false_iff in Hc. cbn. repeat split.
    + now apply prefix_app_r.
    + intros H. apply elem_of_app in H as [H | H]; [now left |].
      right. now apply list_elem_of_singleton in H.
    + intros [H | ->]; apply elem_of_app; [now left |].
      right. now apply list_elem_of_singleton.
    + intros Hnd. apply NoDup_app. split; [exact Hnd |]. split.
      * intros x Hx Hx'. apply list_elem_of_singleton in Hx'. congruence.
      * apply NoDup_singleton.
Qed.

(** X4. [UnsetFinalizer] returns and removes every occurrence of the token
    and nothing else: the token is not in the list it leaves, every other
    finalizer is kept in its order, a second call changes nothing, and the
    spec and the status are not written. *)
Theorem UnsetFinalizer_removes_only_token (tok : string) (s : ClusterManager) :
  exists s1, UnsetFinalizer tok s = Returned (tt, s1) /\
    (tok ∉ finalizers s1) /\
    (forall x, x ∈ finalizers s1 <-> x ∈ finalizers s /\ x <> tok) /\
    finalizers s1 `sublist_of` finalizers s /\
    UnsetFinalizer tok s1 = Returned (tt, s1) /\
    capm3.Spec (BareMetalCluster s1) = capm3.Spec (BareMetalCluster s) /\
    capm3.Status (BareMetalCluster s1) = capm3.Status (BareMetalCluster s).
Proof.
  eexists. split; [run_method; reflexivity |]. cbn.
  split; [apply Filter_removes |].
  split; [intros x; apply Filter_elem |].
  split; [apply Filter_sublist |].
  split; [| split; reflexivity].
  run_method. now rewrite (Filter_absent _ _ (Filter_removes (finalizers s) tok)).
Qed.

Lemma Filter_appended (l : list string) (x : string) :
  x ∉ l -> util.Filter (l ++ [x])%list x = l.
Proof.
  induction l as [|y l IH]; cbn; intros H.
  - now rewrite String.eqb_refl.
  - apply not_elem_of_cons in H as [Hne Hl].
    destruct (String.eqb_spec y x) as [->|_]; [congruence |].
    cbn. now rewrite IH.
Qed.

(** X5. On a list that does not hold the token, [SetFinalizer] followed by
    [UnsetFinalizer] gives back the manager as it was. *)
Theorem SetFinalizer_UnsetFinalizer_round_trip (tok : string) (s : ClusterManager) :
  tok ∉ finalizers s ->
  exists s1, SetFinalizer tok s = Returned (tt, s1) /\
    tok ∈ finalizers s1 /\
    UnsetFinalizer tok s1 = Returned (tt, s).
Proof.
  intros Habs. rewrite SetFinalizer_run.
  rewrite (proj2 (Contains_false_iff _ _) Habs).
  eexists. split; [reflexivity |]. split.
  - cbn. apply elem_of_app. right. left.
  - run_method. rewrite (Filter_appended _ _ Habs).
    destruct s as [c cl [[n ns lb ow fs] sp st] lg]. reflexivity.
Qed.

(** ** The error record and Create *)

(** X6. [clearError] leaves both error fields unset from every status,
    also one that holds only a message or only a reason; it writes nothing
    else, and a second call changes nothing. *)
Theorem clearError_clears_any_state (s : ClusterManager) :
  exists s1, clearError s = Returned (tt, s1) /\
    failureMessage s1 = None /\ failureReason s1 = None /\
    ready s1 = ready s /\ lastUpdated s1 = lastUpdated s /\
    apiEndpoints s1 = apiEndpoints s /\ finalizers s1 = finalizers s /\
    untouched s s1 /\
    clearError s1 = Returned (tt, s1).
Proof.
  run_method.
  destruct (failureMessage s) eqn:Hm, (failureReason s) eqn:Hr; cbn;
    eexists; (split; [reflexivity |]); cbn;
    unfold untouched; repeat split; auto.
  unfold failureMessage, failureReason in *. run_method. now rewrite Hm, Hr.
Qed.

(** X7. The last [setError] wins: a second call leaves the manager the
    second call alone would leave; and [setError] writes the two error
    fields only, so Ready keeps its value. *)
Theorem setError_last_write_wins (m1 m2 : string)
    (r1 r2 : capierrors.ClusterStatusError) (s : ClusterManager) :
  exists s1 s2, setError m1 r1 s = Returned (tt, s1) /\
    setError m2 r2 s1 = Returned (tt, s2) /\
    setError m2 r2 s = Returned (tt, s2) /\
    ready s2 = ready s /\ lastUpdated s2 = lastUpdated s /\
    apiEndpoints s2 = apiEndpoints s /\ finalizers s2 = finalizers s /\
    untouched s s2.
Proof.
  do 2 eexists. split; [run_method; reflexivity |].
  split; [run_method; reflexivity |].
  split; [run_method; reflexivity |].
  unfold untouched. repeat split.
Qed.

(** X8. What [Create] returns and records depends on the spec only: from
    every status it returns the result of the validation, leaves the error
    fields both set when that is an error and both unset when it is not, and
    writes nothing else; a second call returns the same and changes
    nothing. *)
Theorem Create_reflects_validation
    (IsValid : capm3.BareMetalClusterSpec -> option error) (s : ClusterManager) :
  exists s1,
    Create IsValid s
      = Returned (IsValid (capm3.Spec (BareMetalCluster s)), s1) /\
    paired s1 = true /\
    (failureMessage s1 = None <-> IsValid (capm3.Spec (BareMetalCluster s)) = None) /\
    ready s1 = ready s /\ lastUpdated s1 = lastUpdated s /\
    apiEndpoints s1 = apiEndpoints s /\ finalizers s1 = finalizers s /\
    untouched s s1 /\
    Create IsValid s1
      = Returned (IsValid (capm3.Spec (BareMetalCluster s)), s1).
Proof.
  run_method. destruct (IsValid (capm3.Spec (BareMetalCluster s))) as [e|] eqn:Hv.
  - eexists. split; [reflexivity |]. cbn. unfold untouched.
    repeat split; auto; try discriminate.
    run_method. now rewrite Hv.
  - cbn.
    destruct (failureMessage s) eqn:Hm, (failureReason s) eqn:Hr; cbn;
      eexists; (split; [reflexivity |]); cbn; unfold untouched, paired; cbn;
      try rewrite Hm; try rewrite Hr;
      repeat split; auto; run_method; rewrite ?Hv; cbn; try reflexivity.
    unfold failureMessage, failureReason in *. now rewrite Hm, Hr.
Qed.

(** ** The endpoint and the status *)

(** X9. [ControlPlaneEndpoint] never returns an error and never writes the
    infrastructure object.  It answers the endpoint of the spec, alone, when
    the host is not empty and the port is not zero (a negative port passes),
    and no endpoint otherwise, in which case it logs one error entry that
    carries a nil error. *)
Theorem ControlPlaneEndpoint_characterised (s : ClusterManager) :
  exists eps s1, ControlPlaneEndpoint s = Returned ((eps, None), s1) /\
    BareMetalCluster s1 = BareMetalCluster s /\
    (capm3.Host (specEndpoint s) <> "" /\ capm3.Port (specEndpoint s) <> 0 ->
     eps = [specEndpoint s] /\ Log s1 = Log s) /\
    (capm3.Host (specEndpoint s) = "" \/ capm3.Port (specEndpoint s) = 0 ->
     eps = [] /\
     Log s1 = (Log s ++ [logr.ErrorEntry None "Host IP or PORT not set"])%list).
Proof.
  rewrite ControlPlaneEndpoint_run. destruct (endpointSet s) eqn:He.
  - do 2 eexists. split; [reflexivity |]. split; [reflexivity |].
    split; [intros _; split; reflexivity |].
    intros H. apply endpointSet_false in H. congruence.
  - do 2 eexists. split; [reflexivity |]. split; [reflexivity |].
    split; [| intros _; split; reflexivity].
    intros [Hh Hp]. rewrite (endpointSet_true s Hh Hp) in He. discriminate.
Qed.

Lemma endpointSet_statusUpdated (t : Time) (s : ClusterManager) :
  endpointSet (statusUpdated t s) = endpointSet s.
Proof. unfold statusUpdated. destruct (endpointSet s) eqn:He; exact He. Qed.

(** X10. [UpdateClusterStatus] writes Ready and LastUpdated only, and a
    repeated call is absorbed: after a call at [t1] and one at [t2] the
    infrastructure object is the one a single call at [t2] leaves. *)
Theorem UpdateClusterStatus_repeated (t1 t2 : Time) (s : ClusterManager) :
  exists s1 s2 s2',
    UpdateClusterStatus t1 s = Returned (None, s1) /\
    UpdateClusterStatus t2 s1 = Returned (None, s2) /\
    UpdateClusterStatus t2 s = Returned (None, s2') /\
    BareMetalCluster s2 = BareMetalCluster s2' /\
    capm3.Status (BareMetalCluster s1)
      = capm3.withLastUpdated (Some t1)
          (capm3.withReady true (capm3.Status (BareMetalCluster s))) /\
    finalizers s1 = finalizers s /\ untouched s s1.
Proof.
  rewrite !UpdateClusterStatus_run. do 3 eexists.
  split; [reflexivity |]. split; [apply UpdateClusterStatus_run |].
  split; [reflexivity |].
  unfold statusUpdated at 1 3. rewrite endpointSet_statusUpdated.
  unfold statusUpdated, untouched.
  destruct (endpointSet s); cbn; repeat split.
Qed.

(** ** Sequences of calls *)

Lemma untouched_refl (s : ClusterManager) : untouched s s.
Proof. unfold untouched. repeat split. Qed.

Lemma untouched_trans (s1 s2 s3 : ClusterManager) :
  untouched s1 s2 -> untouched s2 s3 -> untouched s1 s3.
Proof.
  unfold untouched. intros (A1 & B1 & C1 & D1) (A2 & B2 & C2 & D2).
  repeat split; congruence.
Qed.

(** What one call does to the parts of the manager besides the error
    record and the finalizers. *)
Lemma call_effect (IsValid : capm3.BareMetalClusterSpec -> option error)
    (tok : string) (o : Op) (s : ClusterManager) :
  exists e s', call IsValid tok o s = Returned (e, s') /\
    untouched s s' /\ apiEndpoints s' = apiEndpoints s /\
    ready s' = (isUpdate o || ready s) /\
    lastUpdated s' = lastStamp [o] (lastUpdated s).
Proof.
  destruct o as [| |now| | |message reason|].
  - run_method. destruct (IsValid (capm3.Spec (BareMetalCluster s))) as [e|].
    + do 2 eexists. split; [reflexivity |]. unfold untouched. repeat split.
    + cbn. destruct (failureMessage s), (failureReason s); cbn;
        do 2 eexists; (split; [reflexivity |]); unfold untouched; repeat split.
  - exists None, s. split; [reflexivity |]. split; [apply untouched_refl |].
    repeat split.
  - exists None, (statusUpdated now s). split; [apply UpdateClusterStatus_run |].
    unfold statusUpdated, untouched. destruct (endpointSet s); repeat split.
  - cbn. unfold mbind, M_bind. rewrite SetFinalizer_run.
    do 2 eexists. split; [reflexivity |].
    destruct (util.Contains (finalizers s) tok);
      unfold untouched; repeat split.
  - do 2 eexists. split; [run_method; reflexivity |].
    unfold untouched. repeat split.
  - do 2 eexists. split; [run_method; reflexivity |].
    unfold untouched. repeat split.
  - run_method. destruct (failureMessage s), (failureReason s); cbn;
      do 2 eexists; (split; [reflexivity |]); unfold untouched; repeat split.
Qed.

(** X11. Every sequence of calls returns, and leaves the client, the owning
    cluster, the spec and the metadata other than the finalizers as they
    were; no call writes the resolved endpoints of the status. *)
Theorem calls_write_status_and_finalizers_only
    (IsValid : capm3.BareMetalClusterSpec -> option error) (tok : string)
    (ops : list Op) (s : ClusterManager) :
  exists s', calls IsValid tok ops s = Returned s' /\
    untouched s s' /\ apiEndpoints s' = apiEndpoints s.
Proof.
  revert s. induction ops as [|o ops IH]; intros s.
  - exists s. split; [reflexivity |]. split; [apply untouched_refl | reflexivity].
  - destruct (call_effect IsValid tok o s) as (e & s1 & Hrun & Hu & Ha & _).
    destruct (IH s1) as (s' & Hrest & Hu' & Ha').
    exists s'. cbn. rewrite Hrun. split; [exact Hrest |].
    split; [eapply untouched_trans; eassumption | congruence].
Qed.

(** X12. Ready is never reset: after a sequence of calls it is true exactly
    when it was true before or the sequence holds an [UpdateClusterStatus]
    call; and LastUpdated is the instant of the last such call, or what it
    was when there is none. *)
Theorem calls_ready_and_last_updated
    (IsValid : capm3.BareMetalClusterSpec -> option error) (tok : string)
    (ops : list Op) (s : ClusterManager) :
  exists s', calls IsValid tok ops s = Returned s' /\
    ready s' = (existsb isUpdate ops || ready s) /\
    lastUpdated s' = lastStamp ops (lastUpdated s).
Proof.
  revert s. induction ops as [|o ops IH]; intros s.
  - exists s. repeat split.
  - destruct (call_effect IsValid tok o s) as (e & s1 & Hrun & _ & _ & Hr & Hl).
    destruct (IH s1) as (s' & Hrest & Hr' & Hl').
    exists s'. cbn [calls]. rewrite Hrun. split; [exact Hrest |].
    rewrite Hr', Hl', Hr, Hl. split.
    + cbn [existsb]. destruct (isUpdate o), (existsb isUpdate ops); reflexivity.
    + destruct o; reflexivity.
Qed.

(** ** Descendants *)

(** X13. When the owner lookup answers neither a cluster nor an error,
    [listDescendants] dereferences the nil cluster: [CountDescendants]
    panics. *)
Theorem CountDescendants_nil_owner_panics
    (GetOwnerCluster :
       client.Client -> metav1.ObjectMeta -> option capi.Cluster * option error)
    (s : ClusterManager) :
  GetOwnerCluster (client s) (capm3.ObjectMeta (BareMetalCluster s)) = (None, None) ->
  exists why, listDescendants GetOwnerCluster s = Panicked why /\
              CountDescendants GetOwnerCluster s = Panicked why.
Proof.
  intros Ho. eexists. split; run_method; rewrite Ho; reflexivity.
Qed.

(** X14. Whenever [CountDescendants] returns, its error is the error of the
    owner lookup, whatever the listing answered; the count is the length of
    a list, 0 with an error; and the manager is as before but for its log. *)
Theorem CountDescendants_error_is_owner_error
    (GetOwnerCluster :
       client.Client -> metav1.ObjectMeta -> option capi.Cluster * option error)
    (s s' : ClusterManager) (n : Z) (e : option error) :
  CountDescendants GetOwnerCluster s = Returned ((n, e), s') ->
  e = (GetOwnerCluster (client s) (capm3.ObjectMeta (BareMetalCluster s))).2 /\
  (0 <= n)%Z /\ (e <> None -> n = 0) /\
  BareMetalCluster s' = BareMetalCluster s /\ client s' = client s /\
  Cluster s' = Cluster s.
Proof.
  run_method.
  destruct (GetOwnerCluster (client s) (capm3.ObjectMeta (BareMetalCluster s)))
    as [[cl|] [e0|]]; cbn; try discriminate.
  - intros [= <- <- <-]. repeat split; try lia; intros; reflexivity.
  - destruct (client.List (client s) _ _) as [ms [le|]]; cbn;
      destruct (Z.of_nat (length (capi.Items ms)) >? 0); cbn;
      intros [= <- <- <-]; repeat split; try lia; congruence.
  - intros [= <- <- <-]. repeat split; try lia; intros; reflexivity.
Qed.

(** * The generated deep copies *)

Section DeepCopyProperties.

Context {TypeMetaT ListMetaT SpecT StatusT : Type}.
Context (copyMeta : metav1.ObjectMeta -> metav1.ObjectMeta -> metav1.ObjectMeta).
Context (zeroCluster : v1alpha2.BareMetalCluster TypeMetaT SpecT StatusT).
Context (zeroList : v1alpha2.BareMetalClusterList TypeMetaT ListMetaT SpecT StatusT).

(** [DeepCopyInto] overwrites [out]: what [out] held does not matter. *)
Lemma BareMetalCluster_DeepCopyInto_overwrites
    (a b b' : v1alpha2.BareMetalCluster TypeMetaT SpecT StatusT) :
  v1alpha2.BareMetalCluster_DeepCopyInto copyMeta a b
  = v1alpha2.BareMetalCluster_DeepCopyInto copyMeta a b'.
Proof. reflexivity. Qed.

(** The loop over the indices [k], ..., [k + m - 1] returns, keeps the
    length, writes the copy of item [i] at each of these indices and leaves
    the other items of [out]. *)
Lemma rangeDeepCopyInto_lookup
    (items : list (v1alpha2.BareMetalCluster TypeMetaT SpecT StatusT)) (m : nat) :
  forall (k : nat) (out : list (v1alpha2.BareMetalCluster TypeMetaT SpecT StatusT)),
  length out = length items -> (k + m <= length items)%nat ->
  exists res,
    v1alpha2.rangeDeepCopyInto copyMeta (seq k m) items out = Returned res /\
    length res = length items /\
    forall i, res !! i =
      if decide (k <= i < k + m)%nat
      then (fun a => v1alpha2.BareMetalCluster_DeepCopyInto copyMeta a zeroCluster)
             <$> items !! i
      else out !! i.
Proof.
  induction m as [|m IH]; intros k out Hlen Hk.
  - exists out. split; [reflexivity |]. split; [exact Hlen |].
    intros i. destruct (decide _) as [H|_]; [lia | reflexivity].
  - cbn [seq v1alpha2.rangeDeepCopyInto].
    destruct (lookup_lt_is_Some_2 items k) as [a Ha]; [lia |].
    destruct (lookup_lt_is_Some_2 out k) as [b Hb]; [lia |].
    rewrite Ha, Hb.
    destruct (IH (S k)
                (<[k := v1alpha2.BareMetalCluster_DeepCopyInto copyMeta a b]> out))
      as (res & Hrun & Hlr & Hres).
    { now rewrite length_insert. }
    { lia. }
    exists res. split; [exact Hrun |]. split; [exact Hlr |].
    intros i. rewrite Hres.
    destruct (decide (i = k)) as [->|Hne].
    + destruct (decide (S k <= k < S k + m)%nat) as [H|_]; [lia |].
      destruct (decide (k <= k < k + S m)%nat) as [_|H]; [| lia].
      rewrite list_lookup_insert_eq by lia. now rewrite Ha.
    + rewrite list_lookup_insert_ne by congruence.
      destruct (decide (S k <= i < S k + m)%nat),
               (decide (k <= i < k + S m)%nat); try reflexivity; lia.
Qed.

(** The copy of a list value: [Items] copied item by item. *)
Lemma BareMetalClusterList_DeepCopyInto_run
    (l out : v1alpha2.BareMetalClusterList TypeMetaT ListMetaT SpecT StatusT) :
  v1alpha2.BareMetalClusterList_DeepCopyInto copyMeta zeroCluster l out =
  Returned
    {| v1alpha2.ListTypeMeta := v1alpha2.ListTypeMeta l;
       v1alpha2.ListMeta := v1alpha2.ListMeta l;
       v1alpha2.Items :=
         fmap (M := list)
           (fun a => v1alpha2.BareMetalCluster_DeepCopyInto copyMeta a zeroCluster)
         <$> v1alpha2.Items l |}.
Proof.
  unfold v1alpha2.BareMetalClusterList_DeepCopyInto.
  destruct (v1alpha2.Items l) as [items|] eqn:Hi; cbn.
  - destruct (rangeDeepCopyInto_lookup items (length items) 0
                (replicate (length items) zeroCluster))
      as (res & Hrun & Hlr & Hres).
    { apply length_replicate. }
    { lia. }
    rewrite Hrun. do 3 f_equal.
    apply list_eq. intros i. rewrite Hres, list_lookup_fmap.
    destruct (decide (0 <= i < 0 + length items)%nat) as [_|Hout];
      [reflexivity |].
    rewrite (proj1 (lookup_replicate_None (length items) zeroCluster i))
      by lia.
    rewrite (lookup_ge_None_2 items i) by lia. reflexivity.
  - destruct l as [t lm it]. cbn in *. subst it. reflexivity.
Qed.

(** X15. [DeepCopy] of a list never panics and answers nil exactly for a
    nil receiver.  The copy of a list has the type and list metadata of the
    original, nil [Items] exactly when the original has, and as many items;
    the item at each index has the type metadata, the spec and the status of
    the original item, and the object metadata its own deep copy leaves. *)
Theorem BareMetalClusterList_DeepCopy_items
    (l : v1alpha2.BareMetalClusterList TypeMetaT ListMetaT SpecT StatusT) :
  v1alpha2.BareMetalClusterList_DeepCopy copyMeta zeroCluster zeroList None
    = Returned None /\
  exists c,
    v1alpha2.BareMetalClusterList_DeepCopy copyMeta zeroCluster zeroList (Some l)
      = Returned (Some c) /\
    v1alpha2.ListTypeMeta c = v1alpha2.ListTypeMeta l /\
    v1alpha2.ListMeta c = v1alpha2.ListMeta l /\
    (v1alpha2.Items c = None <-> v1alpha2.Items l = None) /\
    forall items, v1alpha2.Items l = Some items ->
      exists copied, v1alpha2.Items c = Some copied /\
        length copied = length items /\
        forall i a, items !! i = Some a ->
          exists b, copied !! i = Some b /\
            v1alpha2.TypeMeta b = v1alpha2.TypeMeta a /\
            v1alpha2.Spec b = v1alpha2.Spec a /\
            v1alpha2.Status b = v1alpha2.Status a /\
            v1alpha2.ObjectMeta b
              = copyMeta (v1alpha2.ObjectMeta a) (v1alpha2.ObjectMeta a).
Proof.
  split; [reflexivity |].
  unfold v1alpha2.BareMetalClusterList_DeepCopy.
  rewrite BareMetalClusterList_DeepCopyInto_run.
  eexists. split; [reflexivity |]. cbn.
  split; [reflexivity |]. split; [reflexivity |]. split.
  - destruct (v1alpha2.Items l); cbn; split; congruence.
  - intros items Hi. rewrite Hi. cbn. eexists. split; [reflexivity |].
    split; [apply length_fmap |].
    intros i a Ha. eexists. split.
    + rewrite list_lookup_fmap, Ha. reflexivity.
    + repeat split.
Qed.

(** X16. When the deep copy of the object metadata leaves a value equal to
    its receiver, every copy is equal to what it copies: of a cluster and of
    a list, through [DeepCopy] and through [DeepCopyObject]; a nil receiver
    gives nil. *)
Theorem DeepCopy_equal_to_original
    (c : v1alpha2.BareMetalCluster TypeMetaT SpecT StatusT)
    (l : v1alpha2.BareMetalClusterList TypeMetaT ListMetaT SpecT StatusT) :
  (forall m out, copyMeta m out = m) ->
  v1alpha2.BareMetalCluster_DeepCopy copyMeta zeroCluster (Some c) = Some c /\
  v1alpha2.BareMetalCluster_DeepCopyObject copyMeta zeroCluster (Some c) = Some c /\
  v1alpha2.BareMetalCluster_DeepCopy copyMeta zeroCluster None = None /\
  v1alpha2.BareMetalCluster_DeepCopyObject copyMeta zeroCluster None = None /\
  v1alpha2.BareMetalClusterList_DeepCopy copyMeta zeroCluster zeroList (Some l)
    = Returned (Some l) /\
  v1alpha2.BareMetalClusterList_DeepCopyObject copyMeta zeroCluster zeroList (Some l)
    = Returned (Some l) /\
  v1alpha2.BareMetalClusterList_DeepCopyObject copyMeta zeroCluster zeroList None
    = Returned None.
Proof.
  intros Hmeta.
  assert (Hc : forall a, v1alpha2.BareMetalCluster_DeepCopyInto copyMeta a zeroCluster = a).
  { intros [t m sp st]. unfold v1alpha2.BareMetalCluster_DeepCopyInto. cbn.
    now rewrite Hmeta. }
  assert (Hl : v1alpha2.BareMetalClusterList_DeepCopy copyMeta zeroCluster zeroList
                 (Some l) = Returned (Some l)).
  { unfold v1alpha2.BareMetalClusterList_DeepCopy.
    rewrite BareMetalClusterList_DeepCopyInto_run.
    destruct l as [t lm [items|]]; cbn; [| reflexivity].
    do 4 f_equal. rewrite <- (list_fmap_id items) at 2.
    apply list_fmap_ext. intros i a _. apply Hc. }
  unfold v1alpha2.BareMetalCluster_DeepCopyObject,
    v1alpha2.BareMetalClusterList_DeepCopyObject.
  rewrite Hl. cbn. rewrite Hc. repeat split.
Qed.

End DeepCopyProperties.

(** * The further properties at concrete inputs *)

(** X5, witness: a list that holds another token. *)
Lemma SetFinalizer_UnsetFinalizer_round_trip_witness :
  let s := exampleManager emptyStore "192.168.111.249" 6443
             ["foregroundDeletion"] emptyStatus in
  (exampleFinalizer ∉ finalizers s) /\
  exists s1, SetFinalizer exampleFinalizer s = Returned (tt, s1) /\
    exampleFinalizer ∈ finalizers s1 /\
    UnsetFinalizer exampleFinalizer s1 = Returned (tt, s).
Proof.
  cbn zeta.
  assert (Habs : exampleFinalizer ∉
            finalizers (exampleManager emptyStore "192.168.111.249" 6443
                          ["foregroundDeletion"] emptyStatus)).
  { apply Contains_false_iff. reflexivity. }
  split; [exact Habs |].
  exact (SetFinalizer_UnsetFinalizer_round_trip exampleFinalizer
           (exampleManager emptyStore "192.168.111.249" 6443
              ["foregroundDeletion"] emptyStatus) Habs).
Defined.

(** X13, witness: an owner lookup that finds no owner reference. *)
Lemma CountDescendants_nil_owner_panics_witness :
  let s := exampleManager emptyStore "192.168.111.249" 6443 [] emptyStatus in
  exists why,
    listDescendants (fun _ _ => (None, None)) s = Panicked why /\
    CountDescendants (fun _ _ => (None, None)) s = Panicked why.
Proof.
  cbn zeta.
  apply (CountDescendants_nil_owner_panics (fun _ _ => (None, None))
           (exampleManager emptyStore "192.168.111.249" 6443 [] emptyStatus)).
  reflexivity.
Defined.

(** X14, witness: a store whose listing fails after the owner was found. *)
Lemma CountDescendants_error_is_owner_error_witness :
  let s := exampleManager
             (client.storeClient [exampleMachine "ns" "c1"]
                (Some "connection refused"))
             "192.168.111.249" 6443 [] emptyStatus in
  CountDescendants exampleOwner s = Returned ((0, None), s) /\
  None = (exampleOwner (client s) (capm3.ObjectMeta (BareMetalCluster s))).2 /\
  (0 <= 0)%Z /\ (@None error <> None -> 0 = 0) /\
  BareMetalCluster s = BareMetalCluster s /\ client s = client s /\
  Cluster s = Cluster s.
Proof.
  cbn zeta. split; [reflexivity |].
  apply (CountDescendants_error_is_owner_error exampleOwner
           (exampleManager
              (client.storeClient [exampleMachine "ns" "c1"]
                 (Some "connection refused"))
              "192.168.111.249" 6443 [] emptyStatus)
           (exampleManager
              (client.storeClient [exampleMachine "ns" "c1"]
                 (Some "connection refused"))
              "192.168.111.249" 6443 [] emptyStatus)
           0 None).
  reflexivity.
Defined.

(** X16, witness: a list of two clusters, with strings for the type and
    list metadata and for the spec, a boolean for the status, and a copy of
    the object metadata that assigns its receiver. *)
Lemma DeepCopy_equal_to_original_witness :
  let copyMeta := fun (m _ : metav1.ObjectMeta) => m in
  let mk := fun name spec st =>
    {| v1alpha2.TypeMeta := "BareMetalCluster";
       v1alpha2.ObjectMeta := exampleMeta name ∅ [exampleFinalizer];
       v1alpha2.Spec := spec; v1alpha2.Status := st |} in
  let zeroCluster := mk "" "" false in
  let l := {| v1alpha2.ListTypeMeta := "BareMetalClusterList";
              v1alpha2.ListMeta := "v1";
              v1alpha2.Items :=
                Some [mk "a" "http://192.168.111.249:6443" true;
                      mk "b" "" false] |} in
  let zeroList := {| v1alpha2.ListTypeMeta := ""; v1alpha2.ListMeta := "";
                     v1alpha2.Items := None |} in
  (forall m out, copyMeta m out = m) /\
  v1alpha2.BareMetalClusterList_DeepCopy copyMeta zeroCluster zeroList (Some l)
    = Returned (Some l).
Proof.
  cbn zeta. split; [reflexivity |].
  refine (proj1 (proj2 (proj2 (proj2 (proj2
    (DeepCopy_equal_to_original (fun (m _ : metav1.ObjectMeta) => m) _ _
       {| v1alpha2.TypeMeta := "BareMetalCluster";
          v1alpha2.ObjectMeta := exampleMeta "" ∅ [exampleFinalizer];
          v1alpha2.Spec := ""; v1alpha2.Status := false |}
       _ _)))))).
  reflexivity.
Defined.
